(** * SunRise: sun rise and set times around a query time

    A shallow embedding of the SunRise class (SunRise.h, the older header
    variant with default member initializers, and the example caller) and
    of the event search the class performs.

    Quantities the code holds in [float]/[double] are real numbers here;
    [time_t] values are integers (UTC seconds from the Unix epoch). *)

From Stdlib Require Import ZArith Reals Lra Lia List Bool Psatz.
Import ListNotations.

Local Open Scope Z_scope.

(** ** Constants of SunRise.h *)

(** [#define SR_WINDOW 48]: size of the event search window in hours
    ("Even integers only").  It counts hours and indexes the hourly
    samples, so it is a natural number here. *)
Definition SR_WINDOW : nat := 48.

(** Seconds in an hour and in a day. *)
Definition HOUR : Z := 60 * 60.
Definition DAY : Z := 24 * HOUR.

(** ** The result fields of the class *)

(** [typedef struct { float RA; float declination; } skyCoordinates_t]. *)
Record skyCoordinates_t : Type := mkSky {
  RA : R;
  declination : R
}.

(** The public fields of [class SunRise], in declaration order. *)
Record SunRise : Type := mkSunRise {
  queryTime : Z;
  riseTime : Z;
  setTime : Z;
  riseAz : R;
  setAz : R;
  hasRise : bool;
  hasSet : bool;
  isVisible : bool
}.

(** ** The header variant with default member initializers *)

Module Part000.

(** [struct sunCoordinates { double RA; double declination; }]. *)
Record sunCoordinates : Type := mkSun {
  sRA : R;
  sDeclination : R
}.

(** The object as its default member initializers leave it, before the
    constructor body (or anything else) has stored a result:
    [time_t queryTime = 0; time_t riseTime = 0; time_t setTime = 0;
     float riseAz = 0; float setAz = 0;
     bool hasRise = false; bool hasSet = false; bool isVisible = false]. *)
Definition default_members : SunRise :=
  {| queryTime := 0;
     riseTime := 0;
     setTime := 0;
     riseAz := 0%R;
     setAz := 0%R;
     hasRise := false;
     hasSet := false;
     isVisible := false |}.

End Part000.

(** ** Time *)

(** Days from 1970-01-01 to the civil date [y]-[m]-[d] (proleptic
    Gregorian calendar), used only to name the J2000.0 epoch by its
    calendar date. *)
Definition days_from_civil (y m d : Z) : Z :=
  let y' := if m <=? 2 then y - 1 else y in
  let era := y' / 400 in
  let yoe := y' - era * 400 in
  let mp := (m + 9) mod 12 in
  let doy := (153 * mp + 2) / 5 + d - 1 in
  let doe := yoe * 365 + yoe / 4 - yoe / 100 + doy in
  era * 146097 + doe - 719468.

(** January 1, 2000, 12:00 UTC in Unix seconds. *)
Definition J2000_unix : Z := days_from_civil 2000 1 1 * DAY + 12 * HOUR.

(** Modelled from the spec: the time normalization step, "convert the
    input timestamp to a continuous day-offset from a fixed epoch (J2000.0,
    Jan 1 2000 12:00 UTC), producing a real-valued days since epoch".
    SunRise.h declares [julianDate] for this step; its body is not part of
    the sources. *)
Definition daysSinceJ2000 (t : Z) : R := (IZR (t - J2000_unix) / IZR DAY)%R.

(** [time_t], the type of [queryTime], [riseTime] and [setTime]: a signed
    count of seconds, taken here as 64 bits wide.  A sum that leaves the
    type wraps around. *)
Definition TIME_T_MIN : Z := - 2 ^ 63.
Definition TIME_T_MAX : Z := 2 ^ 63 - 1.

Definition inTimeT (z : Z) : Prop := TIME_T_MIN <= z <= TIME_T_MAX.

Definition wrapTime (z : Z) : Z := (z - TIME_T_MIN) mod 2 ^ 64 + TIME_T_MIN.

(** A query time at least SR_WINDOW/2 hours inside the range of [time_t]. *)
Definition windowInTimeT (t : Z) : Prop :=
  TIME_T_MIN + Z.of_nat (SR_WINDOW / 2) * HOUR <= t
  /\ t <= TIME_T_MAX - Z.of_nat (SR_WINDOW / 2) * HOUR.

(** ** Interpolation *)

Local Open Scope R_scope.

(** Modelled from the spec: the body of [interpolate], declared in
    SunRise.h as [float interpolate(float f0, float f1, float f2, float p)],
    is not part of the sources.  "3-point quadratic (Bessel-style)
    interpolation": the parabola through [f0], [f1], [f2] taken at the
    abscissae -1, 0, 1, read at [p], written with the first differences
    [a], [b] and the second difference [c]. *)
Definition interpolate (f0 f1 f2 p : R) : R :=
  let a := f1 - f0 in
  let b := f2 - f1 in
  let c := b - a in
  f1 + p / 2 * (a + b + p * c).

(** Distance of a root from the hour, the interval from 0 to 1. *)
Definition distToHour (r : R) : R :=
  if Rlt_dec r 0 then - r else if Rlt_dec 1 r then r - 1 else 0.

(** Modelled from the spec: "solving the fitted parabola for its root
    nearest the sample interval", with "no separate linear fallback".  The
    parabola is [qa x^2 + qb x + qc] with [x] the fraction of the hour;
    its two roots come from the quadratic formula and the one nearer the
    hour is taken.  The formula divides by [2 * qa]: for three samples on
    a line [qa] is 0, where the reals of the library make the quotient 0
    and floating point would make it an infinity or not a number. *)
Definition quadRoot (qa qb qc : R) : R :=
  let d := sqrt (qb * qb - 4 * qa * qc) in
  let e1 := (- qb + d) / (2 * qa) in
  let e2 := (- qb - d) / (2 * qa) in
  if Rle_dec (distToHour e1) (distToHour e2) then e1 else e2.

(** The sign test on altitude minus the horizon constant: above the
    horizon or not. *)
Definition aboveHorizon (x : R) : bool := if Rlt_dec 0 x then true else false.

(** The two kinds of horizon crossing. *)
Inductive crossing : Type := Rising | Setting.

(** Modelled from the spec: "sign goes negative->positive: rising event in
    that hour, sign goes positive->negative: setting event in that hour",
    on the two-valued sign test, so that an altitude of exactly zero counts
    with the negative ones ("zero-or-negative-to-positive transition").
    [a] is the sample at the start of the hour, [b] the one at its end. *)
Definition signChange (a b : R) : option crossing :=
  match aboveHorizon a, aboveHorizon b with
  | false, true => Some Rising
  | true, false => Some Setting
  | _, _ => None
  end.

Local Close Scope R_scope.

(** ** Events and the four candidate slots *)

(** A refined horizon crossing: its time (UTC Unix seconds) and the azimuth
    at that instant. *)
Record event : Type := mkEvent {
  evTime : Z;
  evAz : R
}.

(** One hourly sample: altitude minus the horizon constant, and azimuth. *)
Record sample : Type := mkSample {
  VHz : R;
  Az : R
}.

Definition noSample : sample := {| VHz := 0%R; Az := 0%R |}.

(** Modelled from the spec: "four independent best candidate so far slots",
    nearest-before and nearest-after the query time, for rise and for set. *)
Record slots : Type := mkSlots {
  riseBefore : option event;
  riseAfter : option event;
  setBefore : option event;
  setAfter : option event
}.

Definition noSlots : slots :=
  {| riseBefore := None; riseAfter := None; setBefore := None; setAfter := None |}.

(** The side of the query time [q] an event lies on. *)
Definition isBefore (q : Z) (e : event) : bool := evTime e <? q.

(** Modelled from the spec: "keep only the one closest to queryTime on each
    side - overwrite further ones". *)
Definition nearer (q : Z) (e : event) (o : option event) : option event :=
  match o with
  | None => Some e
  | Some e0 =>
      if Z.abs (evTime e - q) <? Z.abs (evTime e0 - q) then Some e else Some e0
  end.

(** Offer the event [e] of kind [c] to the slot of its kind and side. *)
Definition offer (q : Z) (c : crossing) (e : event) (s : slots) : slots :=
  match c, isBefore q e with
  | Rising, true =>
      {| riseBefore := nearer q e (riseBefore s); riseAfter := riseAfter s;
         setBefore := setBefore s; setAfter := setAfter s |}
  | Rising, false =>
      {| riseBefore := riseBefore s; riseAfter := nearer q e (riseAfter s);
         setBefore := setBefore s; setAfter := setAfter s |}
  | Setting, true =>
      {| riseBefore := riseBefore s; riseAfter := riseAfter s;
         setBefore := nearer q e (setBefore s); setAfter := setAfter s |}
  | Setting, false =>
      {| riseBefore := riseBefore s; riseAfter := riseAfter s;
         setBefore := setBefore s; setAfter := nearer q e (setAfter s) |}
  end.

(** The slot of a kind and a side. *)
Definition slotOf (c : crossing) (before : bool) (s : slots) : option event :=
  match c, before with
  | Rising, true => riseBefore s
  | Rising, false => riseAfter s
  | Setting, true => setBefore s
  | Setting, false => setAfter s
  end.

(** An event lies on the named side of [q]: strictly before it, or at or
    after it. *)
Definition onSide (q : Z) (before : bool) (e : event) : Prop :=
  if before then evTime e < q else q <= evTime e.

(** A slot holds the nearest event of kind [c] on one side of [q] among
    the events [evs]: empty when there is none on that side, and otherwise
    one of them that no other is nearer than. *)
Definition nearestOn (q : Z) (c : crossing) (before : bool)
    (evs : list (crossing * event)) (o : option event) : Prop :=
  match o with
  | None => forall e, In (c, e) evs -> ~ onSide q before e
  | Some e =>
      In (c, e) evs /\ onSide q before e /\
      forall e', In (c, e') evs -> onSide q before e' ->
                 Z.abs (evTime e - q) <= Z.abs (evTime e' - q)
  end.

(** ** The example caller (examples/main.cpp) *)

(** A line of the caller's output.  The text of a line is fixed by the
    [printf] that writes it; a line carries the values that [printf] is
    given. *)
Inductive line : Type :=
| Heading (query : Z) (latitude longitude : R)
| PrecedingEvent
| NoEventPreceding (hours : nat)
| SucceedingEvent
| NoEventSucceeding (hours : nat)
| SunRiseAt (t : Z) (azimuth : R)
| SunSetAt (t : Z) (azimuth : R)
| SunVisible
| SunNotVisible.

(** [(!sr.hasRise || (sr.hasRise && sr.riseTime > sr.queryTime)) &&
     (!sr.hasSet || (sr.hasSet && sr.setTime > sr.queryTime))]. *)
Definition noEventPreceding (sr : SunRise) : bool :=
  (negb (hasRise sr) || (hasRise sr && (riseTime sr >? queryTime sr)))
  && (negb (hasSet sr) || (hasSet sr && (setTime sr >? queryTime sr))).

(** [(!sr.hasRise || (sr.hasRise && sr.riseTime < sr.queryTime)) &&
     (!sr.hasSet || (sr.hasSet && sr.setTime < sr.queryTime))]. *)
Definition noEventSucceeding (sr : SunRise) : bool :=
  (negb (hasRise sr) || (hasRise sr && (riseTime sr <? queryTime sr)))
  && (negb (hasSet sr) || (hasSet sr && (setTime sr <? queryTime sr))).

(** The three [if]s under "Preceding event:", in order. *)
Definition precedingLines (sr : SunRise) : list line :=
  (if noEventPreceding sr then [NoEventPreceding (SR_WINDOW / 2)] else [])
  ++ (if hasRise sr && (riseTime sr <? queryTime sr)
      then [SunRiseAt (riseTime sr) (riseAz sr)] else [])
  ++ (if hasSet sr && (setTime sr <? queryTime sr)
      then [SunSetAt (setTime sr) (setAz sr)] else []).

(** The three [if]s under "Succeeding event:", in order. *)
Definition succeedingLines (sr : SunRise) : list line :=
  (if noEventSucceeding sr then [NoEventSucceeding (SR_WINDOW / 2)] else [])
  ++ (if hasRise sr && (riseTime sr >? queryTime sr)
      then [SunRiseAt (riseTime sr) (riseAz sr)] else [])
  ++ (if hasSet sr && (setTime sr >? queryTime sr)
      then [SunSetAt (setTime sr) (setAz sr)] else []).

(** Everything [main] prints from the object [sr], in order. *)
Definition printReport (latitude longitude : R) (sr : SunRise) : list line :=
  [Heading (queryTime sr) latitude longitude; PrecedingEvent]
  ++ precedingLines sr
  ++ [SucceedingEvent]
  ++ succeedingLines sr
  ++ [if isVisible sr then SunVisible else SunNotVisible].

(** [#define utcOffset 0], the branch taken off the Arduino. *)
Definition utcOffset : Z := 0.

(** [main]: [time(NULL)] is [now], the object [SunRise sr] starts with
    whatever it holds ([sr0]; SunRise.h gives its fields no initializers),
    and [calc] stands for [sr.calculate], whose body is not in the
    sources. *)
Definition main (calc : R -> R -> Z -> SunRise -> SunRise) (now : Z) (sr0 : SunRise)
    : list line :=
  let latitude := 42%R in
  let longitude := (-90)%R in
  let sr := calc latitude longitude (now + utcOffset) sr0 in
  printReport latitude longitude sr.

Definition isRiseLine (l : line) : bool :=
  match l with SunRiseAt _ _ => true | _ => false end.

Definition isSetLine (l : line) : bool :=
  match l with SunSetAt _ _ => true | _ => false end.

(** ** The sketch's loop() (the Arduino example) *)

(** The [int] value of a C condition. *)
Definition c_int (b : bool) : Z := if b then 1 else 0.

(** What one pass of [loop()] leaves: the value of its local
    [notThisTime] at the end, and whether [sr.calculate] was called. *)
Record loopResult : Type := mkLoopResult {
  flagAfter : Z;
  calculated : bool
}.

(** One pass of [loop()].  [second1] and [second2] are what the two calls
    of [second()] return, in order.
    [int notThisTime = 0;
     if (notThisTime = 1 && second() != 0) notThisTime = 0;
     if (notThisTime == 0 && second() == 0) { notThisTime = 1; sr.calculate(...); }]
    The first condition is an assignment: [notThisTime] takes the value of
    [1 && second() != 0]. *)
Definition loop (second1 second2 : Z) : loopResult :=
  let notThisTime := 0 in
  let notThisTime := c_int (negb (1 =? 0) && negb (second1 =? 0)) in
  let notThisTime := if negb (notThisTime =? 0) then 0 else notThisTime in
  if (notThisTime =? 0) && (second2 =? 0)
  then {| flagAfter := 1; calculated := true |}
  else {| flagAfter := notThisTime; calculated := false |}.

(** How many times a run of passes calls [sr.calculate]; each pass is
    given by its two readings of [second()]. *)
Fixpoint loopCalls (passes : list (Z * Z)) : nat :=
  match passes with
  | [] => 0%nat
  | (s1, s2) :: rest =>
      ((if calculated (loop s1 s2) then 1 else 0) + loopCalls rest)%nat
  end.

(** ** A concrete kernel to run the search on *)

(** A sun whose declination is the day offset itself, a sidereal time that
    counts the hours since the day offset given as longitude, and an
    altitude read off a table of whole hours: with the longitude set to the
    day offset of the query, the altitude at sample [i] of the window is
    [profile (i - 24)].  The azimuth is constant. *)
Definition tableSun (d : R) : skyCoordinates_t := {| RA := 0%R; declination := d |}.
Definition tableSidereal (d lon : R) : R := (24 * (d - lon))%R.
Definition tableAltitude (profile : Z -> R) (sp : skyCoordinates_t) (lst lat : R) : R :=
  profile (Int_part (lst + 1 / 2)).
Definition tableAzimuth (sp : skyCoordinates_t) (lst lat : R) : R := 90%R.

(** The sun is up during the listed hours only, one unit above the horizon,
    and one unit below it otherwise. *)
Definition isUp (hours : list Z) (h : Z) : bool := existsb (Z.eqb h) hours.

Definition spikes (hours : list Z) (h : Z) : R := if isUp hours h then 1%R else (-1)%R.

(** Two short days before the query and two after it. *)
Definition fourDays : list Z := [-12; -5; 3; 10].

(** A sun that sets exactly onto the horizon at the end of the hour that
    starts at the query: altitudes 3, 1, 0 at hours -1, 0, 1. *)
Definition grazing (h : Z) : R :=
  if h =? -1 then 3%R else if h =? 0 then 1%R else if h =? 1 then 0%R else (-1)%R.

(** What the search finds in hour [k] of the window around [t] under
    [spikes hours], when the listed hours are at least three apart: a rise
    in the hour before a listed hour and a set in the hour after it, at
    the seconds the fitted parabolas cross zero, with azimuth [az]. *)
Definition spikeDetect (hours : list Z) (az : R) (t : Z) (k : nat)
    : option (crossing * event) :=
  let h := Z.of_nat k - 24 in
  match isUp hours h, isUp hours (h + 1) with
  | false, true =>
      Some (Rising, {| evTime := wrapTime (t + h * HOUR + 2224); evAz := az |})
  | true, false =>
      Some (Setting, {| evTime := wrapTime (t + h * HOUR + 2545); evAz := az |})
  | _, _ => None
  end.

(** Hour [k] is one [spikeDetect] describes: not the first hour of the
    window, and with the sun down an hour before the hour starts. *)
Definition spikeHourOk (hours : list Z) (k : nat) : bool :=
  let h := Z.of_nat k - 24 in
  if xorb (isUp hours h) (isUp hours (h + 1))
  then (1 <=? k)%nat && negb (isUp hours (h - 1))
  else true.

(** A caller that shows the preceding candidate, and one that shows the
    succeeding one. *)
Definition alwaysBefore (q : Z) (b a : event) : bool := true.
Definition alwaysAfter (q : Z) (b a : event) : bool := false.

(** A query time one hour before the end of [time_t]. *)
Definition lastHour : Z := TIME_T_MAX - HOUR.

(** ** The event search *)

Section Search.

(** Modelled from the spec: the bodies of [sun], [localSiderealTime] and of
    the altitude and azimuth formulas are not part of the sources, and the
    specification gives their shape but none of their constants ("a
    closed-form approximation", "the standard spherical-trigonometry
    altitude formula", "a fixed altitude offset constant").  They are the
    parameters of the search: [sun dayOffset] is the solar position model,
    [localSiderealTime dayOffset longitude] the sidereal time in degrees,
    [altitude sp lst latitude] and [azimuth sp lst latitude] the local
    angles, [horizon] the horizon constant. *)
Variable sun : R -> skyCoordinates_t.
Variable localSiderealTime : R -> R -> R.
Variable altitude : skyCoordinates_t -> R -> R -> R.
Variable azimuth : skyCoordinates_t -> R -> R -> R.
Variable horizon : R.

(** The class has one [riseTime] and one [setTime]; the specification
    tracks a candidate on each side of the query time and does not say
    which of two candidates of a kind the field shows.  [showBefore q b a]
    is that decision, for a candidate [b] before and a candidate [a] after
    [q]: whether the field shows [b]. *)
Variable showBefore : Z -> event -> event -> bool.

(** The query time as a day offset. *)
Definition queryDay (t : Z) : R := daysSinceJ2000 t.

(** Modelled from the spec: "offsets from -SR_WINDOW/2 to +SR_WINDOW/2
    hours" around the query time.  The window starts SR_WINDOW/2 hours
    before it, and sample [i] lies [i] hours after the start. *)
Definition windowStart (t : Z) : R := (queryDay t - INR (SR_WINDOW / 2) / 24)%R.

Definition sampleDay (t : Z) (i : nat) : R := (windowStart t + INR i / 24)%R.

(** Modelled from the spec: altitude evaluation, "the sign of (altitude -
    horizon-constant) indicates sun-above/below-horizon", and the azimuth
    at the same instant. *)
Definition observe (latitude longitude d : R) (sp : skyCoordinates_t) : sample :=
  let lst := localSiderealTime d longitude in
  {| VHz := (altitude sp lst latitude - horizon)%R;
     Az := azimuth sp lst latitude |}.

(** Altitude minus the horizon constant at day offset [d], on its own. *)
Definition horizonTest (latitude longitude d : R) : R :=
  VHz (observe latitude longitude d (sun d)).

(** Sample [i] of the window around [t]. *)
Definition sampleAt (latitude longitude : R) (t : Z) (i : nat) : sample :=
  observe latitude longitude (sampleDay t i) (sun (sampleDay t i)).

(** Modelled from the spec: "for each hour in a fixed-size window centered
    on the query time, evaluates altitude at the hour boundaries": the
    SR_WINDOW+1 samples. *)
Definition window (latitude longitude : R) (t : Z) : list sample :=
  map (sampleAt latitude longitude t) (seq 0 (S SR_WINDOW)).

Definition vhz (v : list sample) (i : nat) : R := VHz (nth i v noSample).
Definition azOf (v : list sample) (i : nat) : R := Az (nth i v noSample).

(** Modelled from the spec: "fits a parabola through three altitude samples
    (hour before, at, after)".  For hour [k] these are the samples [k-1],
    [k], [k+1]; the first hour of the window has no sample before it and
    takes the first three samples.  [centre k] is the middle one of the
    three, [hourStart k] the abscissa of the start of hour [k] on the
    parabola's own axis (0, or -1 for the first hour). *)
Definition centre (k : nat) : nat := Nat.max k 1.

Definition hourStart (k : nat) : R := (INR k - INR (centre k))%R.

(** The second difference of the three samples fitted for hour [k], halved:
    the leading coefficient of the parabola. *)
Definition curvature (v : list sample) (k : nat) : R :=
  ((vhz v (centre k - 1) - 2 * vhz v (centre k) + vhz v (centre k + 1)) / 2)%R.

(** Modelled from the spec: the zero-crossing fraction of the hour [k],
    the root of the fitted parabola nearest the hour. *)
Definition zeroCrossing (v : list sample) (k : nat) : R :=
  let c := centre k in
  let f0 := vhz v (c - 1) in
  let f1 := vhz v c in
  let f2 := vhz v (c + 1) in
  let x0 := hourStart k in
  let qa := curvature v k in
  let qb := ((f2 - f0) / 2 + 2 * qa * x0)%R in
  let qc := interpolate f0 f1 f2 x0 in
  quadRoot qa qb qc.

(** The instant [p] of the way through hour [k] of the window around [t],
    in whole seconds, as a number. *)
Definition eventInstant (t : Z) (k : nat) (p : R) : Z :=
  t + (Z.of_nat k - Z.of_nat (SR_WINDOW / 2)) * HOUR + Int_part (p * IZR HOUR).

(** The same instant as the [time_t] the object stores. *)
Definition eventTime (t : Z) (k : nat) (p : R) : Z := wrapTime (eventInstant t k p).

(** Modelled from the spec: "for every event-bearing hour, invoke the
    interpolation refiner to localize the precise time and compute azimuth
    at that instant", azimuth by the same interpolation at the same
    fraction. *)
Definition detect (t : Z) (v : list sample) (k : nat) : option (crossing * event) :=
  match signChange (vhz v k) (vhz v (k + 1)) with
  | None => None
  | Some c =>
      let p := zeroCrossing v k in
      let m := centre k in
      let az := interpolate (azOf v (m - 1)) (azOf v m) (azOf v (m + 1))
                            (hourStart k + p)%R in
      Some (c, {| evTime := eventTime t k p; evAz := az |})
  end.

(** Modelled from the spec: the body of [testSunRiseSet] ("Look for sun
    rise or set events during an hour") is not part of the sources.  Hour
    [k] of the window around [t]: a detected event is offered to its slot. *)
Definition testSunRiseSet (k : nat) (t : Z) (v : list sample) (s : slots) : slots :=
  match detect t v k with
  | Some (c, e) => offer t c e s
  | None => s
  end.

(** The scan over a list of hours, in order, and over the SR_WINDOW hours
    of the window. *)
Definition scanOf (t : Z) (v : list sample) (hours : list nat) (s : slots) : slots :=
  fold_left (fun s k => testSunRiseSet k t v s) hours s.

Definition scan (t : Z) (v : list sample) : slots :=
  scanOf t v (seq 0 SR_WINDOW) noSlots.

(** Every event of a list of hours, and of the window, in hour order, with
    its kind. *)
Definition eventsOf (t : Z) (v : list sample) (hours : list nat) : list (crossing * event) :=
  flat_map (fun k => match detect t v k with Some ce => [ce] | None => [] end) hours.

Definition events (t : Z) (v : list sample) : list (crossing * event) :=
  eventsOf t v (seq 0 SR_WINDOW).

(** What a field shows of the two candidates of a kind. *)
Definition reported (q : Z) (b a : option event) : option event :=
  match b, a with
  | Some eb, Some ea => Some (if showBefore q eb ea then eb else ea)
  | Some eb, None => Some eb
  | None, Some ea => Some ea
  | None, None => None
  end.

(** Modelled from the spec: the body of [initClass] ("Initialize the
    class") is not part of the sources; results are "populated once per
    invocation", flags "remain false" when nothing is found. *)
Definition initClass (s : SunRise) : SunRise :=
  {| queryTime := 0; riseTime := 0; setTime := 0; riseAz := 0%R; setAz := 0%R;
     hasRise := false; hasSet := false; isVisible := false |}.

Definition storeQuery (t : Z) (s : SunRise) : SunRise :=
  {| queryTime := t; riseTime := riseTime s; setTime := setTime s;
     riseAz := riseAz s; setAz := setAz s;
     hasRise := hasRise s; hasSet := hasSet s; isVisible := isVisible s |}.

Definition storeRise (o : option event) (s : SunRise) : SunRise :=
  match o with
  | Some e =>
      {| queryTime := queryTime s; riseTime := evTime e; setTime := setTime s;
         riseAz := evAz e; setAz := setAz s;
         hasRise := true; hasSet := hasSet s; isVisible := isVisible s |}
  | None => s
  end.

Definition storeSet (o : option event) (s : SunRise) : SunRise :=
  match o with
  | Some e =>
      {| queryTime := queryTime s; riseTime := riseTime s; setTime := evTime e;
         riseAz := riseAz s; setAz := evAz e;
         hasRise := hasRise s; hasSet := true; isVisible := isVisible s |}
  | None => s
  end.

Definition storeVisible (b : bool) (s : SunRise) : SunRise :=
  {| queryTime := queryTime s; riseTime := riseTime s; setTime := setTime s;
     riseAz := riseAz s; setAz := setAz s;
     hasRise := hasRise s; hasSet := hasSet s; isVisible := b |}.

(** Everything [calculate] does once the samples are there. *)
Definition finish (t : Z) (v : list sample) (s : SunRise) : SunRise :=
  let sl := scan t v in
  let s1 := storeQuery t (initClass s) in
  let s2 := storeRise (reported t (riseBefore sl) (riseAfter sl)) s1 in
  let s3 := storeSet (reported t (setBefore sl) (setAfter sl)) s2 in
  storeVisible (aboveHorizon (vhz v (SR_WINDOW / 2))) s3.

(** Modelled from the spec: the body of
    [void calculate(float latitude, float longitude, time_t t)] is not part
    of the sources.  Sample the window, scan it, store the results in the
    object; [isVisible] "is set from the altitude sign evaluated directly at
    queryTime", the middle sample of the window. *)
Definition calculate (latitude longitude : R) (t : Z) (s : SunRise) : SunRise :=
  finish t (window latitude longitude t) s.

(** ** Time *)

Lemma wrapTime_inTimeT z : inTimeT z -> wrapTime z = z.
Proof.
  unfold inTimeT, wrapTime, TIME_T_MIN, TIME_T_MAX. intros [Hlo Hhi].
  rewrite Z.mod_small by lia. lia.
Qed.

Lemma wrapTime_range z : inTimeT (wrapTime z).
Proof.
  unfold inTimeT, wrapTime, TIME_T_MIN, TIME_T_MAX.
  pose proof (Z.mod_pos_bound (z - - 2 ^ 63) (2 ^ 64) ltac:(lia)). lia.
Qed.

(** Sample [i] of the window is the instant [i - SR_WINDOW/2] hours from
    the query time. *)
Lemma sampleDay_instant t i :
  sampleDay t i = daysSinceJ2000 (t + (Z.of_nat i - Z.of_nat (SR_WINDOW / 2)) * HOUR).
Proof.
  unfold sampleDay, windowStart, queryDay, daysSinceJ2000.
  replace (INR (SR_WINDOW / 2)) with 24%R by (simpl; lra).
  replace (Z.of_nat (SR_WINDOW / 2)) with 24 by reflexivity.
  rewrite INR_IZR_INZ.
  rewrite !minus_IZR, plus_IZR, mult_IZR, minus_IZR.
  unfold DAY, HOUR. rewrite mult_IZR.
  replace (IZR (60 * 60)) with 3600%R by (rewrite mult_IZR; lra). field.
Qed.

Lemma window_nth latitude longitude t i :
  (i <= SR_WINDOW)%nat ->
  nth i (window latitude longitude t) noSample = sampleAt latitude longitude t i.
Proof.
  intros Hi. unfold window.
  rewrite nth_indep with (d' := sampleAt latitude longitude t 0%nat)
    by (rewrite length_map, length_seq; lia).
  rewrite map_nth. rewrite seq_nth by lia. reflexivity.
Qed.

Lemma vhz_window latitude longitude t i :
  (i <= SR_WINDOW)%nat ->
  vhz (window latitude longitude t) i
  = horizonTest latitude longitude (sampleDay t i).
Proof. intros Hi. unfold vhz. rewrite window_nth by exact Hi. reflexivity. Qed.

(** ** The fitted parabola and its root *)

Local Open Scope R_scope.

Lemma interpolate_before f0 f1 f2 : interpolate f0 f1 f2 (-1) = f0.
Proof. unfold interpolate. field. Qed.

Lemma interpolate_at f0 f1 f2 : interpolate f0 f1 f2 0 = f1.
Proof. unfold interpolate. field. Qed.

Lemma interpolate_after f0 f1 f2 : interpolate f0 f1 f2 1 = f2.
Proof. unfold interpolate. field. Qed.

Lemma interpolate_constant c p : interpolate c c c p = c.
Proof. unfold interpolate. field. Qed.

(** The parabola on the hour's own axis: the coefficients [zeroCrossing]
    hands to [quadRoot] are those of [interpolate] shifted by [x0]. *)
Lemma interpolate_shift f0 f1 f2 x0 x :
  interpolate f0 f1 f2 (x0 + x)
  = (f0 - 2 * f1 + f2) / 2 * (x * x)
    + ((f2 - f0) / 2 + 2 * ((f0 - 2 * f1 + f2) / 2) * x0) * x
    + interpolate f0 f1 f2 x0.
Proof. unfold interpolate. field. Qed.

Lemma distToHour_nonneg r : 0 <= distToHour r.
Proof.
  unfold distToHour. destruct (Rlt_dec r 0); [lra |].
  destruct (Rlt_dec 1 r); lra.
Qed.

Lemma distToHour_zero r : distToHour r = 0 <-> 0 <= r <= 1.
Proof.
  unfold distToHour. destruct (Rlt_dec r 0); [lra |].
  destruct (Rlt_dec 1 r); lra.
Qed.

(** A parabola whose values at 0 and at 1 are not of one strict sign has
    real roots. *)
Lemma discriminant_nonneg qa qb qc :
  qc * (qa + qb + qc) <= 0 -> 0 <= qb * qb - 4 * qa * qc.
Proof.
  intros H.
  destruct (Rle_lt_dec 0 (qb * qb - 4 * qa * qc)) as [Hd | Hd]; [exact Hd |].
  exfalso.
  pose proof (Rle_0_sqr qb) as Sb. unfold Rsqr in Sb.
  pose proof (Rle_0_sqr (2 * qa + qb)) as Sab. unfold Rsqr in Sab.
  assert (H1 : 0 < qa * qc) by lra.
  assert (H2 : 0 < qa * (qa + qb + qc)).
  { assert (E : 4 * (qa * (qa + qb + qc))
               = (2 * qa + qb) * (2 * qa + qb) - (qb * qb - 4 * qa * qc)) by ring.
    lra. }
  assert (H3 : 0 < (qa * qc) * (qa * (qa + qb + qc)))
    by (apply Rmult_lt_0_compat; assumption).
  assert (H4 : (qa * qc) * (qa * (qa + qb + qc))
               = (qa * qa) * (qc * (qa + qb + qc))) by ring.
  pose proof (Rle_0_sqr qa) as Sa. unfold Rsqr in Sa.
  assert (H5 : (qa * qa) * (qc * (qa + qb + qc)) <= 0) by nra.
  lra.
Qed.

(** Both candidates of the quadratic formula are roots. *)
Lemma formula_root qa qb qc s e :
  qa <> 0 -> s * s = qb * qb - 4 * qa * qc -> 2 * qa * e = - qb + s ->
  qa * (e * e) + qb * e + qc = 0.
Proof.
  intros Ha Hs He.
  assert (K : 4 * qa * (qa * (e * e) + qb * e + qc) = 0).
  { replace (4 * qa * (qa * (e * e) + qb * e + qc))
      with ((2 * qa * e) * (2 * qa * e) + 2 * qb * (2 * qa * e) + 4 * qa * qc)
      by ring.
    rewrite He. nra. }
  apply Rmult_integral in K. destruct K as [K | K]; [nra | exact K].
Qed.

(** For a proper parabola whose values at the two ends of the hour are not
    of one strict sign, the root taken is a root inside the hour. *)
Lemma quadRoot_proper qa qb qc :
  qa <> 0 -> qc * (qa + qb + qc) <= 0 ->
  0 <= quadRoot qa qb qc <= 1 /\
  qa * (quadRoot qa qb qc * quadRoot qa qb qc) + qb * quadRoot qa qb qc + qc = 0.
Proof.
  intros Ha H. unfold quadRoot.
  pose proof (discriminant_nonneg qa qb qc H) as Hd.
  assert (Hs : sqrt (qb * qb - 4 * qa * qc) * sqrt (qb * qb - 4 * qa * qc)
               = qb * qb - 4 * qa * qc) by (apply sqrt_sqrt; exact Hd).
  set (s := sqrt (qb * qb - 4 * qa * qc)) in *.
  set (e1 := (- qb + s) / (2 * qa)).
  set (e2 := (- qb - s) / (2 * qa)).
  assert (H1 : 2 * qa * e1 = - qb + s) by (unfold e1; field; exact Ha).
  assert (H2 : 2 * qa * e2 = - qb + - s) by (unfold e2; field; exact Ha).
  assert (R1 : qa * (e1 * e1) + qb * e1 + qc = 0)
    by (apply (formula_root qa qb qc s e1); assumption).
  assert (R2 : qa * (e2 * e2) + qb * e2 + qc = 0)
    by (apply (formula_root qa qb qc (- s) e2); [assumption | nra | assumption]).
  assert (V0 : qa * (e1 * e2) = qc).
  { assert (K : 4 * qa * (qa * (e1 * e2)) = 4 * qa * qc).
    { replace (4 * qa * (qa * (e1 * e2)))
        with ((2 * qa * e1) * (2 * qa * e2)) by ring.
      rewrite H1, H2. nra. }
    apply Rmult_eq_reg_l in K; [exact K | nra]. }
  assert (V1 : qa * ((1 - e1) * (1 - e2)) = qa + qb + qc).
  { assert (K : 4 * qa * (qa * ((1 - e1) * (1 - e2)))
                = 4 * qa * (qa + qb + qc)).
    { replace (4 * qa * (qa * ((1 - e1) * (1 - e2))))
        with ((2 * qa - 2 * qa * e1) * (2 * qa - 2 * qa * e2)) by ring.
      rewrite H1, H2. nra. }
    apply Rmult_eq_reg_l in K; [exact K | nra]. }
  assert (U : (e1 * (1 - e1)) * (e2 * (1 - e2)) <= 0).
  { assert (K : qa * qa * ((e1 * (1 - e1)) * (e2 * (1 - e2))) <= 0).
    { replace (qa * qa * ((e1 * (1 - e1)) * (e2 * (1 - e2))))
        with ((qa * (e1 * e2)) * (qa * ((1 - e1) * (1 - e2)))) by ring.
      rewrite V0, V1. exact H. }
    assert (Q : 0 < qa * qa) by nra.
    nra. }
  destruct (Rle_lt_dec 0 (e1 * (1 - e1))) as [U1 | U1].
  - assert (E1 : 0 <= e1 <= 1) by nra.
    assert (D1 : distToHour e1 = 0) by (apply distToHour_zero; exact E1).
    destruct (Rle_dec (distToHour e1) (distToHour e2)) as [L | L].
    + split; [exact E1 | exact R1].
    + exfalso. apply L. rewrite D1. apply distToHour_nonneg.
  - assert (U2 : 0 <= e2 * (1 - e2)) by nra.
    assert (E2 : 0 <= e2 <= 1) by nra.
    assert (D2 : distToHour e2 = 0) by (apply distToHour_zero; exact E2).
    destruct (Rle_dec (distToHour e1) (distToHour e2)) as [L | L].
    + exfalso. rewrite D2 in L.
      assert (D1 : distToHour e1 = 0)
        by (pose proof (distToHour_nonneg e1); lra).
      apply distToHour_zero in D1. nra.
    + split; [exact E2 | exact R2].
Qed.

(** Three samples on a line: the formula's quotient is by zero. *)
Lemma quadRoot_flat qb qc : quadRoot 0 qb qc = 0.
Proof.
  unfold quadRoot. replace (2 * 0) with 0 by ring. rewrite !Rdiv_0_r.
  destruct (Rle_dec (distToHour 0) (distToHour 0)); reflexivity.
Qed.

(** The root taken lies in the hour, and before its end unless the
    parabola vanishes there. *)
Lemma quadRoot_in_hour qa qb qc :
  qc * (qa + qb + qc) <= 0 ->
  0 <= quadRoot qa qb qc <= 1
  /\ (qa + qb + qc <> 0 -> quadRoot qa qb qc < 1).
Proof.
  intros H. destruct (Req_dec_T qa 0) as [Ha | Ha].
  - subst qa. rewrite quadRoot_flat. split; [lra | intros _; lra].
  - destruct (quadRoot_proper qa qb qc Ha H) as [Hr He].
    split; [exact Hr |]. intros Hend.
    destruct (Req_dec_T (quadRoot qa qb qc) 1) as [E | E]; [| lra].
    exfalso. apply Hend. rewrite E in He. lra.
Qed.

Lemma aboveHorizon_true x : aboveHorizon x = true <-> 0 < x.
Proof.
  unfold aboveHorizon. destruct (Rlt_dec 0 x); split; intros H;
    first [assumption | reflexivity | discriminate | contradiction].
Qed.

Lemma aboveHorizon_false x : aboveHorizon x = false <-> x <= 0.
Proof.
  unfold aboveHorizon. destruct (Rlt_dec 0 x); split; intros H;
    first [lra | reflexivity | discriminate].
Qed.

(** A rise is a step from not above the horizon to above it, a set the
    step back. *)
Lemma signChange_rising a b : signChange a b = Some Rising <-> a <= 0 < b.
Proof.
  unfold signChange.
  destruct (aboveHorizon a) eqn:Ea, (aboveHorizon b) eqn:Eb;
    first [apply aboveHorizon_true in Ea | apply aboveHorizon_false in Ea];
    first [apply aboveHorizon_true in Eb | apply aboveHorizon_false in Eb];
    split; intros H; first [discriminate | lra | reflexivity].
Qed.

Lemma signChange_setting a b : signChange a b = Some Setting <-> b <= 0 < a.
Proof.
  unfold signChange.
  destruct (aboveHorizon a) eqn:Ea, (aboveHorizon b) eqn:Eb;
    first [apply aboveHorizon_true in Ea | apply aboveHorizon_false in Ea];
    first [apply aboveHorizon_true in Eb | apply aboveHorizon_false in Eb];
    split; intros H; first [discriminate | lra | reflexivity].
Qed.

Lemma signChange_same a b :
  aboveHorizon a = aboveHorizon b -> signChange a b = None.
Proof.
  intros H. unfold signChange. rewrite H. destruct (aboveHorizon b); reflexivity.
Qed.

Lemma signChange_product a b c : signChange a b = Some c -> a * b <= 0.
Proof.
  destruct c; intros H;
    [apply signChange_rising in H | apply signChange_setting in H]; nra.
Qed.

(** The two ends of hour [k] are values of the parabola fitted for it. *)
Lemma fit_hour_start v k :
  interpolate (vhz v (centre k - 1)) (vhz v (centre k)) (vhz v (centre k + 1))
              (hourStart k) = vhz v k.
Proof.
  unfold hourStart, centre. destruct k as [| k'].
  - simpl. replace (0 - 1) with (-1) by ring. apply interpolate_before.
  - replace (Nat.max (S k') 1) with (S k') by lia.
    replace (INR (S k') - INR (S k')) with 0 by ring. apply interpolate_at.
Qed.

Lemma fit_hour_end v k :
  interpolate (vhz v (centre k - 1)) (vhz v (centre k)) (vhz v (centre k + 1))
              (hourStart k + 1) = vhz v (k + 1).
Proof.
  unfold hourStart, centre. destruct k as [| k'].
  - simpl. replace (0 - 1 + 1) with 0 by ring. apply interpolate_at.
  - replace (Nat.max (S k') 1) with (S k') by lia.
    replace (INR (S k') - INR (S k') + 1) with 1 by ring. apply interpolate_after.
Qed.

(** The zero-crossing fraction of an hour with a sign change lies in the
    hour, before its end unless the sample there is exactly on the horizon,
    and is a zero of the fitted parabola when that is a proper parabola. *)
Lemma zeroCrossing_in_hour v k c :
  signChange (vhz v k) (vhz v (k + 1)) = Some c ->
  0 <= zeroCrossing v k <= 1
  /\ (vhz v (k + 1) <> 0 -> zeroCrossing v k < 1)
  /\ (curvature v k <> 0 ->
      interpolate (vhz v (centre k - 1)) (vhz v (centre k)) (vhz v (centre k + 1))
                  (hourStart k + zeroCrossing v k) = 0).
Proof.
  intros Hc. apply signChange_product in Hc.
  rewrite <- (fit_hour_end v k).
  rewrite <- (fit_hour_start v k), <- (fit_hour_end v k) in Hc.
  unfold curvature.
  set (f0 := vhz v (centre k - 1)) in *.
  set (f1 := vhz v (centre k)) in *.
  set (f2 := vhz v (centre k + 1)) in *.
  rewrite (interpolate_shift f0 f1 f2 (hourStart k) 1) in Hc |- *.
  rewrite (interpolate_shift f0 f1 f2 (hourStart k) (zeroCrossing v k)).
  unfold zeroCrossing, curvature. fold f0 f1 f2.
  set (qa := (f0 - 2 * f1 + f2) / 2) in *.
  set (qb := (f2 - f0) / 2 + 2 * qa * hourStart k) in *.
  set (qc := interpolate f0 f1 f2 (hourStart k)) in *.
  replace (qa * (1 * 1) + qb * 1 + qc) with (qa + qb + qc) in Hc |- * by ring.
  destruct (quadRoot_in_hour qa qb qc Hc) as [Hr Hend].
  split; [exact Hr | split; [exact Hend |]].
  intros Ha. apply (quadRoot_proper qa qb qc Ha Hc).
Qed.

Local Close Scope R_scope.

(** ** Event times *)

(** Whole seconds of a fraction of an hour. *)
Lemma seconds_in_hour (p : R) :
  (0 <= p <= 1)%R ->
  0 <= Int_part (p * IZR HOUR) <= HOUR
  /\ ((p < 1)%R -> Int_part (p * IZR HOUR) < HOUR).
Proof.
  intros [H0 H1].
  destruct (base_Int_part (p * IZR HOUR)) as [Hle Hgt].
  assert (HH : IZR HOUR = 3600%R) by (unfold HOUR; rewrite mult_IZR; lra).
  assert (HZ : HOUR = 3600) by reflexivity.
  rewrite HH in *. rewrite HZ. split; [split |].
  - assert (L : -1 < Int_part (p * 3600)) by (apply lt_IZR; nra). lia.
  - apply le_IZR. nra.
  - intros Hp. apply lt_IZR. nra.
Qed.

Lemma eventInstant_in_hour t k p :
  (0 <= p <= 1)%R ->
  t + (Z.of_nat k - Z.of_nat (SR_WINDOW / 2)) * HOUR <= eventInstant t k p
  /\ eventInstant t k p <= t + (Z.of_nat k - Z.of_nat (SR_WINDOW / 2) + 1) * HOUR
  /\ ((p < 1)%R ->
      eventInstant t k p < t + (Z.of_nat k - Z.of_nat (SR_WINDOW / 2) + 1) * HOUR).
Proof.
  intros Hp. destruct (seconds_in_hour p Hp) as [Hs Hlt].
  unfold eventInstant. split; [lia | split; [lia |]].
  intros H1. specialize (Hlt H1). lia.
Qed.

Lemma eventInstant_in_window t k p :
  (k < SR_WINDOW)%nat -> (0 <= p <= 1)%R ->
  Z.abs (eventInstant t k p - t) <= Z.of_nat (SR_WINDOW / 2) * HOUR.
Proof.
  intros Hk Hp. destruct (eventInstant_in_hour t k p Hp) as [Hlo [Hhi _]].
  assert (W : Z.of_nat (SR_WINDOW / 2) = 24) by reflexivity.
  assert (K : Z.of_nat k < 48) by (unfold SR_WINDOW in Hk; lia).
  assert (HZ : HOUR = 3600) by reflexivity.
  rewrite W, HZ in *. lia.
Qed.

(** For such a query time no event time of the window wraps around. *)
Lemma eventTime_exact t k p :
  windowInTimeT t -> (k < SR_WINDOW)%nat -> (0 <= p <= 1)%R ->
  eventTime t k p = eventInstant t k p.
Proof.
  intros [Hlo Hhi] Hk Hp. unfold eventTime. apply wrapTime_inTimeT.
  pose proof (eventInstant_in_window t k p Hk Hp) as Hw.
  unfold inTimeT. lia.
Qed.

Lemma detect_origin t v k c e :
  detect t v k = Some (c, e) ->
  signChange (vhz v k) (vhz v (k + 1)) = Some c
  /\ evTime e = eventTime t k (zeroCrossing v k).
Proof.
  unfold detect. destruct (signChange (vhz v k) (vhz v (k + 1))) as [c' |] eqn:E;
    [| discriminate].
  intros H. injection H as Hc He. subst c' e. split; reflexivity.
Qed.

Lemma detect_none t v k :
  signChange (vhz v k) (vhz v (k + 1)) = None -> detect t v k = None.
Proof. intros H. unfold detect. rewrite H. reflexivity. Qed.

Lemma eventsOf_in t v hours c e :
  In (c, e) (eventsOf t v hours) <-> exists k, In k hours /\ detect t v k = Some (c, e).
Proof.
  unfold eventsOf. rewrite in_flat_map. split.
  - intros [k [Hk Hin]]. exists k. split; [exact Hk |].
    destruct (detect t v k) as [ce |]; simpl in Hin; [| contradiction].
    destruct Hin as [-> | []]. reflexivity.
  - intros [k [Hk Hd]]. exists k. split; [exact Hk |]. rewrite Hd. left. reflexivity.
Qed.

(** Every event of the window comes from an hour of the window with a sign
    change of its kind, at the refined time of that hour. *)
Lemma events_origin t v c e :
  In (c, e) (events t v) ->
  exists k, (k < SR_WINDOW)%nat
            /\ signChange (vhz v k) (vhz v (k + 1)) = Some c
            /\ evTime e = eventTime t k (zeroCrossing v k).
Proof.
  intros Hin. apply (eventsOf_in t v (seq 0 SR_WINDOW)) in Hin.
  destruct Hin as [k [Hk Hd]]. apply in_seq in Hk.
  apply detect_origin in Hd. exists k. split; [lia | exact Hd].
Qed.

(** Every event of the window lies within SR_WINDOW/2 hours of a query
    time whose window fits in [time_t]. *)
Lemma events_in_window t v c e :
  windowInTimeT t -> In (c, e) (events t v) ->
  Z.abs (evTime e - t) <= Z.of_nat (SR_WINDOW / 2) * HOUR.
Proof.
  intros Ht Hin. destruct (events_origin t v c e Hin) as [k [Hk [Hc He]]].
  destruct (zeroCrossing_in_hour v k c Hc) as [Hp _].
  rewrite He, (eventTime_exact t k _ Ht Hk Hp).
  apply eventInstant_in_window; assumption.
Qed.

(** ** The four slots *)

Lemma isBefore_side q e : onSide q (isBefore q e) e.
Proof.
  unfold onSide, isBefore. destruct (Z.ltb_spec (evTime e) q); assumption.
Qed.

Lemma onSide_isBefore q b e : onSide q b e -> isBefore q e = b.
Proof.
  unfold onSide, isBefore. destruct b; intros H;
    [apply Z.ltb_lt | apply Z.ltb_ge]; exact H.
Qed.

Lemma nearer_spec q e o evs c b :
  onSide q b e -> nearestOn q c b evs o ->
  nearestOn q c b (evs ++ [(c, e)]) (nearer q e o).
Proof.
  intros Hside Hold. unfold nearer. destruct o as [e0 |]; simpl in *.
  - destruct Hold as [Hin [Hs Hmin]].
    destruct (Z.ltb_spec (Z.abs (evTime e - q)) (Z.abs (evTime e0 - q))) as [Hlt | Hge];
      simpl; (split; [apply in_or_app; auto using in_eq | split; [assumption |]]);
      intros e' Hin' Hs'; apply in_app_or in Hin';
      destruct Hin' as [Hin' | [Heq | []]];
      try (injection Heq as <-); try lia;
      specialize (Hmin e' Hin' Hs'); lia.
  - split; [apply in_or_app; right; apply in_eq | split; [assumption |]].
    intros e' Hin' Hs'. apply in_app_or in Hin'.
    destruct Hin' as [Hin' | [Heq | []]].
    + exfalso. exact (Hold e' Hin' Hs').
    + injection Heq as <-. lia.
Qed.

Lemma nearestOn_other q c b evs o c0 e0 :
  (c0 <> c \/ isBefore q e0 <> b) -> nearestOn q c b evs o ->
  nearestOn q c b (evs ++ [(c0, e0)]) o.
Proof.
  intros Hne Hold.
  assert (Hnew : forall e', In (c, e') (evs ++ [(c0, e0)]) -> onSide q b e' ->
                            In (c, e') evs).
  { intros e' Hin Hs. apply in_app_or in Hin. destruct Hin as [Hin | [Heq | []]].
    - exact Hin.
    - injection Heq as Hc He. subst. apply onSide_isBefore in Hs.
      destruct Hne as [Hne | Hne]; contradiction. }
  unfold nearestOn in *. destruct o as [e |].
  - destruct Hold as [Hin [Hs Hmin]].
    split; [apply in_or_app; left; exact Hin | split; [exact Hs |]].
    intros e' Hin' Hs'. apply Hmin; [apply Hnew |]; assumption.
  - intros e' Hin' Hs'. exact (Hold e' (Hnew e' Hin' Hs') Hs').
Qed.

Lemma offer_spec q c0 e0 s evs :
  (forall c b, nearestOn q c b evs (slotOf c b s)) ->
  forall c b, nearestOn q c b (evs ++ [(c0, e0)]) (slotOf c b (offer q c0 e0 s)).
Proof.
  intros Hold c b. specialize (Hold c b).
  pose proof (isBefore_side q e0) as Hside.
  unfold offer.
  destruct c0, (isBefore q e0) eqn:Hs, c, b; simpl in *;
    first [ apply nearer_spec; assumption
          | apply nearestOn_other;
            [ first [ left; discriminate | right; rewrite Hs; discriminate ]
            | assumption ] ].
Qed.

Lemma scanOf_spec t v hours s evs :
  (forall c b, nearestOn t c b evs (slotOf c b s)) ->
  forall c b, nearestOn t c b (evs ++ eventsOf t v hours) (slotOf c b (scanOf t v hours s)).
Proof.
  revert s evs. induction hours as [| k hours IH]; intros s evs Hold c b.
  - simpl. rewrite app_nil_r. apply Hold.
  - unfold scanOf, eventsOf in *. simpl. unfold testSunRiseSet at 2.
    destruct (detect t v k) as [[c0 e0] |].
    + simpl. replace (evs ++ (c0, e0) :: flat_map
        (fun k0 => match detect t v k0 with Some ce => [ce] | None => [] end) hours)
        with ((evs ++ [(c0, e0)]) ++ flat_map
        (fun k0 => match detect t v k0 with Some ce => [ce] | None => [] end) hours)
        by (rewrite <- app_assoc; reflexivity).
      apply IH. apply offer_spec. exact Hold.
    + simpl. apply IH. exact Hold.
Qed.

(** After the scan every slot holds the nearest event of its kind on its
    side of the query time. *)
Lemma scan_spec t v c b : nearestOn t c b (events t v) (slotOf c b (scan t v)).
Proof.
  change (events t v) with ([] ++ eventsOf t v (seq 0 SR_WINDOW)).
  unfold scan. apply scanOf_spec.
  intros c' b'. destruct c', b'; simpl; intros e [].
Qed.

(** ** What [calculate] stores *)

Lemma finish_queryTime t v s : queryTime (finish t v s) = t.
Proof.
  unfold finish.
  destruct (reported t (riseBefore (scan t v)) (riseAfter (scan t v)));
    destruct (reported t (setBefore (scan t v)) (setAfter (scan t v)));
    reflexivity.
Qed.

Lemma finish_rise t v s :
  match reported t (riseBefore (scan t v)) (riseAfter (scan t v)) with
  | Some e => hasRise (finish t v s) = true
              /\ riseTime (finish t v s) = evTime e
              /\ riseAz (finish t v s) = evAz e
  | None => hasRise (finish t v s) = false
  end.
Proof.
  unfold finish.
  destruct (reported t (riseBefore (scan t v)) (riseAfter (scan t v)));
    destruct (reported t (setBefore (scan t v)) (setAfter (scan t v)));
    simpl; auto.
Qed.

Lemma finish_set t v s :
  match reported t (setBefore (scan t v)) (setAfter (scan t v)) with
  | Some e => hasSet (finish t v s) = true
              /\ setTime (finish t v s) = evTime e
              /\ setAz (finish t v s) = evAz e
  | None => hasSet (finish t v s) = false
  end.
Proof.
  unfold finish.
  destruct (reported t (riseBefore (scan t v)) (riseAfter (scan t v)));
    destruct (reported t (setBefore (scan t v)) (setAfter (scan t v)));
    simpl; auto.
Qed.

(** The field shows one of the two candidates it is given. *)
Lemma reported_is_slot q b a e :
  reported q b a = Some e -> b = Some e \/ a = Some e.
Proof.
  unfold reported. destruct b as [eb |], a as [ea |]; intros H;
    try discriminate; injection H as <-; auto.
  destruct (showBefore q eb ea); auto.
Qed.

(** What a field shows is an event of the window of its kind, and the
    nearest one on the side of the query time it lies on. *)
Lemma reported_nearest t v c e :
  reported t (slotOf c true (scan t v)) (slotOf c false (scan t v)) = Some e ->
  In (c, e) (events t v)
  /\ forall e', In (c, e') (events t v) -> (evTime e' < t <-> evTime e < t) ->
                Z.abs (evTime e - t) <= Z.abs (evTime e' - t).
Proof.
  intros H. apply reported_is_slot in H. destruct H as [H | H].
  - pose proof (scan_spec t v c true) as N. rewrite H in N.
    destruct N as [Hin [Hs Hmin]]. split; [exact Hin |].
    intros e' Hin' Hs'. apply Hmin; [exact Hin' |].
    unfold onSide in *. apply Hs'. exact Hs.
  - pose proof (scan_spec t v c false) as N. rewrite H in N.
    destruct N as [Hin [Hs Hmin]]. split; [exact Hin |].
    intros e' Hin' Hs'. apply Hmin; [exact Hin' |].
    unfold onSide in *. lia.
Qed.

(** The rise field, when set, shows an event of the window, the nearest
    rise on its side of the query time. *)
Lemma calculate_rise_event latitude longitude t s :
  let v := window latitude longitude t in
  let r := calculate latitude longitude t s in
  hasRise r = true ->
  exists e, In (Rising, e) (events t v) /\ riseTime r = evTime e /\
    forall e', In (Rising, e') (events t v) -> (evTime e' < t <-> evTime e < t) ->
               Z.abs (riseTime r - t) <= Z.abs (evTime e' - t).
Proof.
  intros v r Hr. subst r. unfold calculate in *. fold v in Hr |- *.
  pose proof (finish_rise t v s) as F.
  destruct (reported t (riseBefore (scan t v)) (riseAfter (scan t v))) as [e |] eqn:E.
  - destruct F as [_ [Ht _]].
    destruct (reported_nearest t v Rising e E) as [Hin Hmin].
    exists e. split; [exact Hin | split; [exact Ht |]].
    rewrite Ht. exact Hmin.
  - rewrite F in Hr. discriminate.
Qed.

Lemma calculate_set_event latitude longitude t s :
  let v := window latitude longitude t in
  let r := calculate latitude longitude t s in
  hasSet r = true ->
  exists e, In (Setting, e) (events t v) /\ setTime r = evTime e /\
    forall e', In (Setting, e') (events t v) -> (evTime e' < t <-> evTime e < t) ->
               Z.abs (setTime r - t) <= Z.abs (evTime e' - t).
Proof.
  intros v r Hr. subst r. unfold calculate in *. fold v in Hr |- *.
  pose proof (finish_set t v s) as F.
  destruct (reported t (setBefore (scan t v)) (setAfter (scan t v))) as [e |] eqn:E.
  - destruct F as [_ [Ht _]].
    destruct (reported_nearest t v Setting e E) as [Hin Hmin].
    exists e. split; [exact Hin | split; [exact Ht |]].
    rewrite Ht. exact Hmin.
  - rewrite F in Hr. discriminate.
Qed.

(** ** Properties of the search *)




End Search.

(** ** The search on the concrete kernel *)

Abbreviation tableWindow profile t :=
  (window tableSun tableSidereal (tableAltitude profile) tableAzimuth
          0%R 0%R (daysSinceJ2000 t) t).

Abbreviation tableCalculate profile show t :=
  (calculate tableSun tableSidereal (tableAltitude profile) tableAzimuth
             0%R show 0%R (daysSinceJ2000 t) t).

Lemma Int_part_half (z : Z) : Int_part (IZR z + 1 / 2) = z.
Proof. symmetry. apply Int_part_spec. lra. Qed.

(** The altitude at sample [i] is the table's entry for hour [i - 24]. *)
Lemma table_vhz profile t i :
  (i <= SR_WINDOW)%nat ->
  vhz (tableWindow profile t) i = profile (Z.of_nat i - 24).
Proof.
  intros Hi. rewrite vhz_window by exact Hi.
  unfold horizonTest, observe, tableAltitude, tableSidereal, tableSun.
  cbn [VHz declination].
  replace (24 * (sampleDay t i - daysSinceJ2000 t) + 1 / 2)%R
    with (IZR (Z.of_nat i - 24) + 1 / 2)%R.
  - rewrite Int_part_half. ring.
  - unfold sampleDay, windowStart, queryDay.
    replace (INR (SR_WINDOW / 2)) with 24%R by (simpl; lra).
    rewrite minus_IZR, <- INR_IZR_INZ. field.
Qed.

Lemma table_az profile t i :
  (i <= SR_WINDOW)%nat -> azOf (tableWindow profile t) i = 90%R.
Proof. intros Hi. unfold azOf. rewrite window_nth by exact Hi. reflexivity. Qed.

Lemma spikes_above hours h : aboveHorizon (spikes hours h) = isUp hours h.
Proof.
  unfold spikes. destruct (isUp hours h);
    [apply aboveHorizon_true | apply aboveHorizon_false]; lra.
Qed.

(** Seconds into the hour of the zero of [x^2 + x - 1] and of [1 - 2 x^2]. *)
Lemma rise_seconds (p : R) :
  (0 <= p <= 1)%R -> (p * p + p - 1 = 0)%R -> Int_part (p * IZR HOUR) = 2224.
Proof.
  intros Hp He. symmetry. apply Int_part_spec.
  replace (IZR HOUR) with 3600%R by (unfold HOUR; rewrite mult_IZR; lra).
  assert (Hlo : (2224 / 3600 <= p)%R).
  { destruct (Rle_lt_dec (2224 / 3600) p) as [H | H]; [exact H |]. exfalso. nra. }
  assert (Hhi : (p < 2225 / 3600)%R).
  { destruct (Rlt_le_dec p (2225 / 3600)) as [H | H]; [exact H |]. exfalso. nra. }
  lra.
Qed.

Lemma set_seconds (p : R) :
  (0 <= p <= 1)%R -> (1 - 2 * (p * p) = 0)%R -> Int_part (p * IZR HOUR) = 2545.
Proof.
  intros Hp He. symmetry. apply Int_part_spec.
  replace (IZR HOUR) with 3600%R by (unfold HOUR; rewrite mult_IZR; lra).
  assert (Hlo : (2545 / 3600 <= p)%R).
  { destruct (Rle_lt_dec (2545 / 3600) p) as [H | H]; [exact H |]. exfalso. nra. }
  assert (Hhi : (p < 2546 / 3600)%R).
  { destruct (Rlt_le_dec p (2546 / 3600)) as [H | H]; [exact H |]. exfalso. nra. }
  lra.
Qed.

(** Under [spikes] the search finds in each hour what [spikeDetect] says. *)
Lemma table_detect hours t k :
  (k < SR_WINDOW)%nat -> spikeHourOk hours k = true ->
  detect t (tableWindow (spikes hours) t) k = spikeDetect hours 90%R t k.
Proof.
  intros Hk Hok. unfold spikeHourOk in Hok. unfold spikeDetect.
  set (v := tableWindow (spikes hours) t).
  assert (Hv0 : vhz v k = spikes hours (Z.of_nat k - 24))
    by (apply table_vhz; lia).
  assert (Hv1 : vhz v (k + 1) = spikes hours (Z.of_nat k - 24 + 1)).
  { unfold v. rewrite table_vhz by lia. f_equal. lia. }
  assert (Haz : forall i, (i <= SR_WINDOW)%nat -> azOf v i = 90%R)
    by (intros i Hi; apply table_az; exact Hi).
  assert (Hs : signChange (vhz v k) (vhz v (k + 1))
               = match isUp hours (Z.of_nat k - 24), isUp hours (Z.of_nat k - 24 + 1) with
                 | false, true => Some Rising
                 | true, false => Some Setting
                 | _, _ => None
                 end).
  { unfold signChange. rewrite Hv0, Hv1, !spikes_above. reflexivity. }
  destruct (isUp hours (Z.of_nat k - 24)) eqn:U0,
           (isUp hours (Z.of_nat k - 24 + 1)) eqn:U1;
    cbn [xorb] in Hok;
    try (apply detect_none; exact Hs).
  - (* a set *)
    apply andb_true_iff in Hok. destruct Hok as [Hk1 Hm].
    apply Nat.leb_le in Hk1. apply negb_true_iff in Hm.
    assert (Hc : centre k = k) by (unfold centre; lia).
    assert (Hvm : vhz v (k - 1) = (-1)%R).
    { unfold v. rewrite table_vhz by lia. unfold spikes.
      replace (Z.of_nat (k - 1) - 24) with (Z.of_nat k - 24 - 1) by lia.
      rewrite Hm. reflexivity. }
    assert (Hv0' : vhz v k = 1%R) by (rewrite Hv0; unfold spikes; rewrite U0; reflexivity).
    assert (Hv1' : vhz v (k + 1) = (-1)%R)
      by (rewrite Hv1; unfold spikes; rewrite U1; reflexivity).
    destruct (zeroCrossing_in_hour v k Setting Hs) as [Hp [_ Hroot]].
    unfold curvature in Hroot. rewrite Hc, Hvm, Hv0', Hv1' in Hroot.
    assert (Hx : hourStart k = 0%R) by (unfold hourStart; rewrite Hc; ring).
    rewrite Hx in Hroot.
    assert (He : (1 - 2 * (zeroCrossing v k * zeroCrossing v k) = 0)%R).
    { assert (Hq : ((-1 - 2 * 1 + -1) / 2 <> 0)%R) by lra.
      specialize (Hroot Hq). unfold interpolate in Hroot. lra. }
    unfold detect. rewrite Hs. cbv zeta. rewrite Hc.
    rewrite (Haz (k - 1)%nat), (Haz k), (Haz (k + 1)%nat) by lia.
    rewrite interpolate_constant.
    unfold eventTime, eventInstant. rewrite (set_seconds _ Hp He).
    replace (Z.of_nat (SR_WINDOW / 2)) with 24 by reflexivity. reflexivity.
  - (* a rise *)
    apply andb_true_iff in Hok. destruct Hok as [Hk1 Hm].
    apply Nat.leb_le in Hk1. apply negb_true_iff in Hm.
    assert (Hc : centre k = k) by (unfold centre; lia).
    assert (Hvm : vhz v (k - 1) = (-1)%R).
    { unfold v. rewrite table_vhz by lia. unfold spikes.
      replace (Z.of_nat (k - 1) - 24) with (Z.of_nat k - 24 - 1) by lia.
      rewrite Hm. reflexivity. }
    assert (Hv0' : vhz v k = (-1)%R)
      by (rewrite Hv0; unfold spikes; rewrite U0; reflexivity).
    assert (Hv1' : vhz v (k + 1) = 1%R)
      by (rewrite Hv1; unfold spikes; rewrite U1; reflexivity).
    destruct (zeroCrossing_in_hour v k Rising Hs) as [Hp [_ Hroot]].
    unfold curvature in Hroot. rewrite Hc, Hvm, Hv0', Hv1' in Hroot.
    assert (Hx : hourStart k = 0%R) by (unfold hourStart; rewrite Hc; ring).
    rewrite Hx in Hroot.
    assert (He : (zeroCrossing v k * zeroCrossing v k + zeroCrossing v k - 1 = 0)%R).
    { assert (Hq : ((-1 - 2 * -1 + 1) / 2 <> 0)%R) by lra.
      specialize (Hroot Hq). unfold interpolate in Hroot. lra. }
    unfold detect. rewrite Hs. cbv zeta. rewrite Hc.
    rewrite (Haz (k - 1)%nat), (Haz k), (Haz (k + 1)%nat) by lia.
    rewrite interpolate_constant.
    unfold eventTime, eventInstant. rewrite (rise_seconds _ Hp He).
    replace (Z.of_nat (SR_WINDOW / 2)) with 24 by reflexivity. reflexivity.
Qed.


Lemma eventsOf_ext t v hours f :
  (forall k, In k hours -> detect t v k = f k) ->
  eventsOf t v hours
  = flat_map (fun k => match f k with Some ce => [ce] | None => [] end) hours.
Proof.
  intros Hf. unfold eventsOf. induction hours as [| k hours IH]; [reflexivity |].
  cbn [flat_map]. rewrite (Hf k) by (left; reflexivity).
  rewrite IH by (intros k' Hk'; apply Hf; right; exact Hk'). reflexivity.
Qed.

Lemma scanOf_ext t v hours f s :
  (forall k, In k hours -> detect t v k = f k) ->
  scanOf t v hours s
  = fold_left (fun s k => match f k with
                          | Some (c, e) => offer t c e s
                          | None => s
                          end) hours s.
Proof.
  intros Hf. unfold scanOf. revert s.
  induction hours as [| k hours IH]; intros s; [reflexivity |].
  cbn [fold_left]. unfold testSunRiseSet at 2. rewrite (Hf k) by (left; reflexivity).
  apply IH. intros k' Hk'. apply Hf. right. exact Hk'.
Qed.

Lemma table_hours hours t :
  forallb (spikeHourOk hours) (seq 0 SR_WINDOW) = true ->
  forall k, In k (seq 0 SR_WINDOW) ->
            detect t (tableWindow (spikes hours) t) k = spikeDetect hours 90%R t k.
Proof.
  intros Hall k Hk. apply table_detect.
  - apply in_seq in Hk. lia.
  - rewrite forallb_forall in Hall. apply Hall. exact Hk.
Qed.

(** The window around the J2000.0 epoch under [spikes fourDays]: two rises
    and two sets before the query time, two rises and two sets after it. *)
Example fourDays_events :
  events J2000_unix (tableWindow (spikes fourDays) J2000_unix)
  = [ (Rising, {| evTime := 946683424; evAz := 90%R |});
      (Setting, {| evTime := 946687345; evAz := 90%R |});
      (Rising, {| evTime := 946708624; evAz := 90%R |});
      (Setting, {| evTime := 946712545; evAz := 90%R |});
      (Rising, {| evTime := 946737424; evAz := 90%R |});
      (Setting, {| evTime := 946741345; evAz := 90%R |});
      (Rising, {| evTime := 946762624; evAz := 90%R |});
      (Setting, {| evTime := 946766545; evAz := 90%R |}) ].
Proof.
  unfold events.
  rewrite (eventsOf_ext _ _ _ (spikeDetect fourDays 90%R J2000_unix))
    by (apply table_hours; reflexivity).
  generalize 90%R. intros az. vm_compute. reflexivity.
Qed.

(** The scan of that window: in each slot the nearer of the two events of
    its kind on its side; the earlier rise before the query time was
    overwritten by the later one, the later rise after it was not taken. *)
Example fourDays_scan :
  scan J2000_unix (tableWindow (spikes fourDays) J2000_unix)
  = {| riseBefore := Some {| evTime := 946708624; evAz := 90%R |};
       riseAfter := Some {| evTime := 946737424; evAz := 90%R |};
       setBefore := Some {| evTime := 946712545; evAz := 90%R |};
       setAfter := Some {| evTime := 946741345; evAz := 90%R |} |}.
Proof.
  unfold scan.
  rewrite (scanOf_ext _ _ _ (spikeDetect fourDays 90%R J2000_unix))
    by (apply table_hours; reflexivity).
  generalize 90%R. intros az. vm_compute. reflexivity.
Qed.

Lemma fourDays_night :
  aboveHorizon (vhz (tableWindow (spikes fourDays) J2000_unix) (SR_WINDOW / 2)) = false.
Proof.
  rewrite table_vhz by (unfold SR_WINDOW; simpl; lia). rewrite spikes_above.
  reflexivity.
Qed.

(** The whole search on that window, for a caller shown the preceding
    candidates. *)
Example fourDays_run :
  tableCalculate (spikes fourDays) alwaysBefore J2000_unix Part000.default_members
  = {| queryTime := 946728000; riseTime := 946708624; setTime := 946712545;
       riseAz := 90%R; setAz := 90%R;
       hasRise := true; hasSet := true; isVisible := false |}.
Proof.
  unfold calculate, finish. rewrite fourDays_scan, fourDays_night. reflexivity.
Qed.

(** One hour before the end of [time_t], with the sun up during the third
    hour after the query only: the rise and the set fall beyond the end of
    the type and are stored wrapped around. *)
Example lastHour_scan :
  scan lastHour (tableWindow (spikes [3]) lastHour)
  = {| riseBefore := Some {| evTime := -9223372036854769985; evAz := 90%R |};
       riseAfter := None;
       setBefore := Some {| evTime := -9223372036854766064; evAz := 90%R |};
       setAfter := None |}.
Proof.
  unfold scan.
  rewrite (scanOf_ext _ _ _ (spikeDetect [3] 90%R lastHour))
    by (apply table_hours; reflexivity).
  generalize 90%R. intros az. vm_compute. reflexivity.
Qed.

Example lastHour_run :
  tableCalculate (spikes [3]) alwaysAfter lastHour Part000.default_members
  = {| queryTime := 9223372036854772207; riseTime := -9223372036854769985;
       setTime := -9223372036854766064;
       riseAz := 90%R; setAz := 90%R;
       hasRise := true; hasSet := true; isVisible := false |}.
Proof.
  unfold calculate, finish. rewrite lastHour_scan.
  replace (aboveHorizon (vhz (tableWindow (spikes [3]) lastHour) (SR_WINDOW / 2)))
    with false.
  - reflexivity.
  - rewrite table_vhz by (unfold SR_WINDOW; simpl; lia). rewrite spikes_above.
    reflexivity.
Qed.

(** The grazing set: altitudes 3, 1, 0 around the hour that starts at the
    query time. *)
Lemma grazing_samples t :
  let v := tableWindow grazing t in
  vhz v 23 = 3%R /\ vhz v 24 = 1%R /\ vhz v 25 = 0%R.
Proof.
  intros v. unfold v.
  rewrite !table_vhz by (unfold SR_WINDOW; lia). repeat split.
Qed.

Lemma grazing_set t :
  let v := tableWindow grazing t in
  signChange (vhz v 24) (vhz v (24 + 1)) = Some Setting.
Proof.
  intros v. destruct (grazing_samples t) as [_ [H24 H25]]. fold v in H24, H25.
  apply signChange_setting. change (24 + 1)%nat with 25%nat. rewrite H24, H25. lra.
Qed.

Lemma grazing_crossing t : zeroCrossing (tableWindow grazing t) 24 = 1%R.
Proof.
  set (v := tableWindow grazing t).
  destruct (grazing_samples t) as [H23 [H24 H25]]. fold v in H23, H24, H25.
  destruct (zeroCrossing_in_hour v 24 Setting (grazing_set t)) as [Hp [_ Hroot]].
  unfold curvature, hourStart in Hroot.
  change (centre 24) with 24%nat in Hroot.
  change (24 - 1)%nat with 23%nat in Hroot. change (24 + 1)%nat with 25%nat in Hroot.
  rewrite H23, H24, H25 in Hroot.
  assert (Hq : ((3 - 2 * 1 + 0) / 2 <> 0)%R) by lra.
  specialize (Hroot Hq). unfold interpolate in Hroot.
  replace (INR 24 - INR 24)%R with 0%R in Hroot by ring.
  nra.
Qed.


Lemma J2000_window_in_time_t : windowInTimeT J2000_unix.
Proof. split; apply Z.leb_le; reflexivity. Qed.






(** ** Default member initializers *)

(** C10: in the header variant with default member initializers, an object
    nothing has been computed into reads 0 for [queryTime], [riseTime] and
    [setTime], 0 for [riseAz] and [setAz], and false for [hasRise],
    [hasSet] and [isVisible]. *)
Theorem C10_default_members_are_zero_and_false :
  let sr := Part000.default_members in
  queryTime sr = 0 /\ riseTime sr = 0 /\ setTime sr = 0
  /\ riseAz sr = 0%R /\ setAz sr = 0%R
  /\ hasRise sr = false /\ hasSet sr = false /\ isVisible sr = false.
Proof.
  intros sr. unfold sr, Part000.default_members. cbn.
  repeat split.
Qed.

(** ** The example caller's report *)

Ltac report_cases sr :=
  destruct sr as [q rt st raz saz hr hs vis];
  unfold printReport, precedingLines, succeedingLines,
    noEventPreceding, noEventSucceeding;
  cbn [queryTime riseTime setTime riseAz setAz hasRise hasSet isVisible];
  rewrite ?Z.gtb_ltb;
  destruct hr, hs;
  destruct (Z.ltb_spec rt q); destruct (Z.ltb_spec q rt);
  destruct (Z.ltb_spec st q); destruct (Z.ltb_spec q st);
  try lia; cbn.

Ltac no_such_line :=
  repeat match goal with
         | H : _ \/ _ |- _ => destruct H
         | H : False |- _ => contradiction
         | H : @eq line _ _ |- _ => discriminate H
         | H : @eq bool _ _ |- _ => discriminate H
         end.

Ltac use_found :=
  repeat match goal with
         | H : true = true -> _ |- _ => specialize (H eq_refl)
         end.

(** X1: under "Preceding event:" the line "No sun rise or set during
    preceding 24 hours" is printed exactly when every event that was found
    lies strictly after the query time, and it is then the only line of
    that part; likewise under "Succeeding event:" with strictly before. *)
Theorem X1_no_event_line sr :
  (In (NoEventPreceding (SR_WINDOW / 2)) (precedingLines sr) <->
     (hasRise sr = true -> queryTime sr < riseTime sr)
     /\ (hasSet sr = true -> queryTime sr < setTime sr))
  /\ (In (NoEventPreceding (SR_WINDOW / 2)) (precedingLines sr) ->
      precedingLines sr = [NoEventPreceding (SR_WINDOW / 2)])
  /\ (In (NoEventSucceeding (SR_WINDOW / 2)) (succeedingLines sr) <->
     (hasRise sr = true -> riseTime sr < queryTime sr)
     /\ (hasSet sr = true -> setTime sr < queryTime sr))
  /\ (In (NoEventSucceeding (SR_WINDOW / 2)) (succeedingLines sr) ->
      succeedingLines sr = [NoEventSucceeding (SR_WINDOW / 2)]).
Proof.
  report_cases sr; repeat split; intros;
    solve [ reflexivity | lia | no_such_line
          | left; reflexivity
          | exfalso; match goal with H : _ /\ _ |- _ => destruct H end;
            use_found; lia ].
Qed.

(** X2: a part of the report stays empty under its heading exactly when an
    event that was found falls on the query time itself and the other
    event, if found, does not fall on that part's side: such an event is
    shown neither as preceding nor as succeeding, and no "No sun rise or
    set" line takes its place. *)
Theorem X2_event_at_query_time_is_not_shown sr :
  (precedingLines sr = [] <->
     (hasRise sr = true /\ riseTime sr = queryTime sr
      /\ (hasSet sr = true -> queryTime sr <= setTime sr))
     \/ (hasSet sr = true /\ setTime sr = queryTime sr
         /\ (hasRise sr = true -> queryTime sr <= riseTime sr)))
  /\ (succeedingLines sr = [] <->
     (hasRise sr = true /\ riseTime sr = queryTime sr
      /\ (hasSet sr = true -> setTime sr <= queryTime sr))
     \/ (hasSet sr = true /\ setTime sr = queryTime sr
         /\ (hasRise sr = true -> riseTime sr <= queryTime sr))).
Proof.
  report_cases sr; (split; split); intros HE;
    solve [ discriminate HE
          | left; repeat split; intros; lia
          | right; repeat split; intros; lia
          | reflexivity
          | exfalso; destruct HE as [[E1 [E2 E3]] | [E1 [E2 E3]]];
            first [discriminate E1 | use_found; lia] ].
Qed.

(** X3: the whole report shows each found event at most once, and exactly
    once when its time differs from the query time: the number of "Sun
    rise at" lines is 1 if a rise was found at another time than the query
    time and 0 otherwise, and the same for "Sun set at".  A rise is never
    shown both as preceding and as succeeding. *)
Theorem X3_each_event_printed_once latitude longitude sr :
  length (filter isRiseLine (printReport latitude longitude sr))
  = (if hasRise sr && negb (riseTime sr =? queryTime sr) then 1%nat else 0%nat)
  /\ length (filter isSetLine (printReport latitude longitude sr))
     = (if hasSet sr && negb (setTime sr =? queryTime sr) then 1%nat else 0%nat).
Proof.
  report_cases sr;
    destruct (Z.eqb_spec rt q); destruct (Z.eqb_spec st q); try lia;
    destruct vis; split; reflexivity.
Qed.

(** X4: both "No sun rise or set" lines appear in one report exactly when
    neither a rise nor a set was found. *)
Theorem X4_both_no_event_lines latitude longitude sr :
  (In (NoEventPreceding (SR_WINDOW / 2)) (printReport latitude longitude sr)
   /\ In (NoEventSucceeding (SR_WINDOW / 2)) (printReport latitude longitude sr))
  <-> (hasRise sr = false /\ hasSet sr = false).
Proof.
  report_cases sr; destruct vis; split;
    solve [ intros [HP HS]; no_such_line
          | intros [E1 E2]; discriminate
          | intros _; split; reflexivity
          | intros _; split; [right; right; left | right; right; right; right; left];
            reflexivity ].
Qed.

(** ** The sketch's loop() *)

Lemma loop_calculated second1 second2 :
  calculated (loop second1 second2) = (second2 =? 0).
Proof.
  unfold loop. destruct (Z.eqb_spec second1 0); cbn;
    destruct (second2 =? 0); reflexivity.
Qed.

(** X5: a pass of [loop()] calls [sr.calculate] exactly when its second
    reading of [second()] is 0, whatever the first reading was: the local
    [notThisTime] is 0 again whenever it is tested, so over any run of
    passes the number of calls is the number of passes whose second reading
    is 0, and passes that all fall in second 0 call it every time. *)
Theorem X5_loop_calls_every_pass_in_second_zero (passes : list (Z * Z)) :
  loopCalls passes = length (filter (fun p => snd p =? 0) passes)
  /\ ((forall p, In p passes -> snd p = 0) -> loopCalls passes = length passes).
Proof.
  assert (Hcount : forall l, loopCalls l = length (filter (fun p => snd p =? 0) l)).
  { induction l as [| [s1 s2] l IH]; [reflexivity |].
    cbn [loopCalls filter snd]. rewrite loop_calculated, IH.
    destruct (s2 =? 0); reflexivity. }
  split; [apply Hcount |].
  intros Hall. rewrite Hcount. f_equal.
  induction passes as [| p passes IH]; [reflexivity |].
  cbn [filter]. rewrite (proj2 (Z.eqb_eq (snd p) 0)) by (apply Hall; left; reflexivity).
  f_equal. apply IH. intros p' Hp'. apply Hall. right. exact Hp'.
Qed.

